(** * hamTWOmon: the wide-band FM tuner/demodulator chain

    A shallow embedding of [apps/demodulators/WBFM.py] (class
    [TunerDemodWBFM]) and the properties of its construction and of its two
    run-time setters.

    Conventions of the embedding.
    - Python [int] values are [Z]; Python [float] values are exact
      rationals [Q] (rounding and overflow of IEEE doubles are outside the
      model).  The one transcendental operation of the file, [10 ** x] in
      [set_volume], yields a real number [R].
    - A Python call that may raise returns a [Py.result].
    - GNU Radio objects are recorded as descriptions of the constructor and
      of its arguments; the flow graph is a list of edges made by
      [self.connect].  Whether a GNU Radio constructor rejects its arguments
      is not visible in the repository and is left to an oracle. *)

From Stdlib Require Import ZArith QArith Qround Qpower List String Bool Lia.
From Stdlib Require Import Reals Lra Qreals.
Import ListNotations.

Open Scope string_scope.
Open Scope list_scope.
Open Scope Z_scope.

(* ================================================================== *)
(** ** The Python fragment used by the class *)

Module Py.

(** Exception classes.  The first three are raised by the operations the
    file uses; [OtherError] stands for any other class, by its name. *)
Inductive exn : Type :=
| ZeroDivisionError
| ValueError
| IndexError
| OtherError (class_name : string).

Inductive result (A : Type) : Type :=
| Ok (a : A)
| Raise (e : exn).
Arguments Ok {A} a.
Arguments Raise {A} e.

Definition bind {A B : Type} (m : result A) (k : A -> result B) : result B :=
  match m with
  | Ok a => k a
  | Raise e => Raise e
  end.

(** [int(x)] on a float: truncation towards zero. *)
Definition int (x : Q) : Z := Z.quot (Qnum x) (Z.pos (Qden x)).

(** [a / b] on two ints: true division. *)
Definition truediv_int (a b : Z) : result Q :=
  if b =? 0 then Raise ZeroDivisionError
  else Ok (inject_Z a / inject_Z b)%Q.

(** [a / b] when one operand is a float. *)
Definition truediv (a b : Q) : result Q :=
  if Qeq_bool b 0 then Raise ZeroDivisionError else Ok (a / b)%Q.

(** [~ i] on an int, and the truth value of an int. *)
Definition invert (i : Z) : Z := Z.lnot i.
Definition truthy (i : Z) : bool := negb (i =? 0).

(** [l.index(x)] on a list of floats: position of the first element equal
    to [x]; [ValueError] when there is none. *)
Fixpoint index_from (l : list Q) (x : Q) (i : Z) : result Z :=
  match l with
  | [] => Raise ValueError
  | y :: l' => if Qeq_bool y x then Ok i else index_from l' x (i + 1)
  end.
Definition index (l : list Q) (x : Q) : result Z := index_from l x 0.

(** [l[i]]: negative subscripts count from the end. *)
Definition getitem {A : Type} (l : list A) (i : Z) : result A :=
  let n := Z.of_nat (List.length l) in
  let j := if i <? 0 then i + n else i in
  if (j <? 0) || (n <=? j) then Raise IndexError
  else match nth_error l (Z.to_nat j) with
       | Some a => Ok a
       | None => Raise IndexError
       end.

End Py.

Import Py.

Notation "x <- m ;; k" := (Py.bind m (fun x => k))
  (at level 61, m at next level, right associativity).
Notation "m ;;; k" := (Py.bind m (fun _ => k))
  (at level 61, right associativity).

(* ================================================================== *)
(** ** GNU Radio objects, as the class builds them *)

Module Gr.

Inductive window : Type := WIN_HAMMING.

(** The taps returned by [firdes.low_pass(gain, sampling_freq,
    cutoff_freq, transition_width, window)], kept as the design they were
    computed from. *)
Record low_pass : Type := LowPass {
  lp_gain : Q;
  lp_sampling_freq : Q;
  lp_cutoff_freq : Q;
  lp_transition_width : Q;
  lp_window : window
}.

Inductive wav_format : Type := FORMAT_WAV.
Inductive wav_subformat : Type := FORMAT_PCM_16 | FORMAT_PCM_08.

Definition sizeof_float : Z := 4.
Definition sizeof_gr_complex : Z := 8.

Inductive block : Type :=
| freq_xlating_fir_filter_ccc
    (decimation : Z) (taps : low_pass) (center_freq : Z) (sampling_freq : Z)
| fir_filter_ccc (decimation : Z) (taps : low_pass)
| fir_filter_fff (decimation : Z) (taps : low_pass)
| pwr_squelch_cc (db : Z) (alpha : Q) (ramp : Z) (gate : bool)
| pwr_squelch_ff (db : Z) (alpha : Q) (ramp : Z) (gate : bool)
| quadrature_demod_cf (gain : R)
| arb_resampler_fff (rate : Q) (flt_size : Z)
| wavfile_sink (filename : string) (n_channels : Z) (sample_rate : Z)
    (format : wav_format) (subformat : wav_subformat) (append : bool)
| null_sink (sizeof_stream_item : Z).

(** The two kinds of library call the constructor makes. *)
Inductive call : Type :=
| Design (t : low_pass)
| Make (b : block).

End Gr.

(* ================================================================== *)
(** ** The class [TunerDemodWBFM] *)

(** An end of a [self.connect(src, dst)] edge: the hierarchical block itself
    (its input port when it is the source, its output port when it is the
    destination) or a block, named by the Python variable that holds it. *)
Inductive endpoint : Type :=
| Self
| Blk (name : string).

Definition endpoint_eqb (a b : endpoint) : bool :=
  match a, b with
  | Self, Self => true
  | Blk x, Blk y => String.eqb x y
  | _, _ => false
  end.

Record TunerDemodWBFM : Type := mkTuner {
  audio_rate : Z;
  audio_bps : Z;
  min_recording : Q;
  center_freq : Z;
  quad_demod_gain : Q;
  file_name : option string;
  record : bool;
  blocks : list (string * Gr.block);
  edges : list (endpoint * endpoint);
  ctcss_index : option Z;
  ctcss_tone : option Q
}.

(** Modelled from the spec: [BaseTuner.__init__], the parent constructor in
    [demodulators/BaseTuner.py], which is not among the sources.  Of what it
    is handed, the audio rate, the audio bit depth and the minimum recording
    duration are construction parameters of the channel (spec, section 6);
    it keeps them as attributes.  The classifier handle and the notification
    callback are threaded through to the session layer and leave no trace in
    this class. *)
Record BaseTuner : Type := mkBase {
  base_audio_rate : Z;
  base_audio_bps : Z;
  base_min_recording : Q
}.

Definition BaseTuner_init (audio_rate audio_bps : Z) (min_recording : Q)
  : BaseTuner :=
  mkBase audio_rate audio_bps min_recording.

(** The decimation values [decims] of the constructor: the fixed factor 5
    and the factor derived from the input rate. *)
Definition decims (samp_rate : Z) : Z * Z :=
  (5, Py.int (inject_Z samp_rate / 1E6)%Q).

Section Construction.

(** What a GNU Radio call raises on the arguments it is given, if
    anything. *)
Variable gr_raises : Gr.call -> option Py.exn.

Definition gr_call (c : Gr.call) : result unit :=
  match gr_raises c with
  | Some e => Raise e
  | None => Ok tt
  end.

Definition firdes_low_pass (gain fs fc tw : Q) (w : Gr.window)
  : result Gr.low_pass :=
  let t := Gr.LowPass gain fs fc tw w in
  gr_call (Gr.Design t) ;;; Ok t.

Definition make (b : Gr.block) : result Gr.block :=
  gr_call (Gr.Make b) ;;; Ok b.

(** [TunerDemodWBFM.__init__].  The classifier and the callback are only
    handed to the parent constructor and are left out. *)
Definition __init__ (samp_rate audio_rate : Z) (record : bool)
    (audio_bps : Z) (min_recording : Q) : result TunerDemodWBFM :=
  let base := BaseTuner_init audio_rate audio_bps min_recording in
  (* Default values *)
  let center_freq := 0 in
  let squelch_db := -60 in
  let quad_demod_gain := 0.050%Q in
  let file_name := @None string in
  (* Decimation values for four stages of decimation *)
  let decims := decims samp_rate in
  (* Low pass filter taps for decimation by 5 *)
  low_pass_filter_taps_0 <-
    firdes_low_pass 1 1 0.090 0.010 Gr.WIN_HAMMING ;;
  (* Frequency translating FIR filter decimating by 5 *)
  freq_xlating_fir_filter_ccc <-
    make (Gr.freq_xlating_fir_filter_ccc (fst decims)
            low_pass_filter_taps_0 center_freq samp_rate) ;;
  (* FIR filter decimating by 5 *)
  fir_filter_ccc_0 <-
    make (Gr.fir_filter_ccc (fst decims) low_pass_filter_taps_0) ;;
  (* Low pass filter taps for decimation from samp_rate/25 *)
  fs_1 <- Py.truediv_int samp_rate (fst decims ^ 2) ;;
  low_pass_filter_taps_1 <-
    firdes_low_pass 1 fs_1 12.5E3 1E3 Gr.WIN_HAMMING ;;
  (* FIR filter decimation by int(samp_rate/1E6) *)
  fir_filter_ccc_1 <-
    make (Gr.fir_filter_ccc (snd decims) low_pass_filter_taps_1) ;;
  (* Non blocking power squelch *)
  analog_pwr_squelch_cc <-
    make (Gr.pwr_squelch_cc squelch_db 1e-1 0 false) ;;
  (* Quadrature demod with gain set for decent audio *)
  analog_quadrature_demod_cf <-
    make (Gr.quadrature_demod_cf (Q2R quad_demod_gain)) ;;
  (* 3.5 kHz cutoff for audio bandwidth *)
  fs_2 <- Py.truediv_int samp_rate (snd decims * fst decims ^ 2) ;;
  low_pass_filter_taps_2 <-
    firdes_low_pass 1 fs_2 3.5E3 500 Gr.WIN_HAMMING ;;
  (* FIR filter decimating by 5 *)
  fir_filter_fff_0 <-
    make (Gr.fir_filter_fff (fst decims) low_pass_filter_taps_2) ;;
  (* Polyphase resampler allows arbitary RF sample rates *)
  fs_3 <- Py.truediv_int samp_rate (snd decims * fst decims ^ 3) ;;
  pfb_resamp <- Py.truediv (inject_Z audio_rate) fs_3 ;;
  pfb_arb_resampler_fff <- make (Gr.arb_resampler_fff pfb_resamp 32) ;;
  (* Connect the blocks for the demod *)
  let demod_edges :=
    [ (Self, Blk "freq_xlating_fir_filter_ccc");
      (Blk "freq_xlating_fir_filter_ccc", Blk "fir_filter_ccc_0");
      (Blk "fir_filter_ccc_0", Blk "fir_filter_ccc_1");
      (Blk "fir_filter_ccc_1", Blk "analog_pwr_squelch_cc");
      (Blk "analog_pwr_squelch_cc", Blk "analog_quadrature_demod_cf");
      (Blk "analog_quadrature_demod_cf", Blk "fir_filter_fff_0");
      (Blk "fir_filter_fff_0", Blk "pfb_arb_resampler_fff");
      (Blk "pfb_arb_resampler_fff", Self) ] in
  let demod_blocks :=
    [ ("freq_xlating_fir_filter_ccc", freq_xlating_fir_filter_ccc);
      ("fir_filter_ccc_0", fir_filter_ccc_0);
      ("fir_filter_ccc_1", fir_filter_ccc_1);
      ("analog_pwr_squelch_cc", analog_pwr_squelch_cc);
      ("analog_quadrature_demod_cf", analog_quadrature_demod_cf);
      ("fir_filter_fff_0", fir_filter_fff_0);
      ("pfb_arb_resampler_fff", pfb_arb_resampler_fff) ] in
  (* Very low value of -200 since it is after demod *)
  analog_pwr_squelch_ff <-
    make (Gr.pwr_squelch_ff (-200) 1e-1 0 true) ;;
  (* Connect the blocks for recording *)
  if record then
    let wav_format :=
      if base_audio_bps base =? 16 then Gr.FORMAT_PCM_16
      else if base_audio_bps base =? 8 then Gr.FORMAT_PCM_08
      else Gr.FORMAT_PCM_16 in
    blocks_wavfile_sink <-
      make (Gr.wavfile_sink "/dev/null" 1 audio_rate Gr.FORMAT_WAV
              wav_format false) ;;
    Ok (mkTuner (base_audio_rate base) (base_audio_bps base)
          (base_min_recording base) center_freq quad_demod_gain
          file_name record
          (demod_blocks ++
           [ ("analog_pwr_squelch_ff", analog_pwr_squelch_ff);
             ("blocks_wavfile_sink", blocks_wavfile_sink) ])
          (demod_edges ++
           [ (Blk "pfb_arb_resampler_fff", Blk "analog_pwr_squelch_ff");
             (Blk "analog_pwr_squelch_ff", Blk "blocks_wavfile_sink") ])
          None None)
  else
    null_sink1 <- make (Gr.null_sink Gr.sizeof_float) ;;
    Ok (mkTuner (base_audio_rate base) (base_audio_bps base)
          (base_min_recording base) center_freq quad_demod_gain
          file_name record
          (demod_blocks ++
           [ ("analog_pwr_squelch_ff", analog_pwr_squelch_ff);
             ("null_sink1", null_sink1) ])
          (demod_edges ++
           [ (Blk "pfb_arb_resampler_fff", Blk "analog_pwr_squelch_ff");
             (Blk "analog_pwr_squelch_ff", Blk "null_sink1") ])
          None None).

End Construction.

(** The object [__init__] returns when no call raises. *)
Definition constructed (samp_rate audio_rate : Z) (record : bool)
    (audio_bps : Z) (min_recording : Q) : TunerDemodWBFM :=
  let d0 := fst (decims samp_rate) in
  let d1 := snd (decims samp_rate) in
  let taps_0 := Gr.LowPass 1 1 0.090 0.010 Gr.WIN_HAMMING in
  let taps_1 :=
    Gr.LowPass 1 (inject_Z samp_rate / inject_Z (d0 ^ 2)) 12.5E3 1E3
      Gr.WIN_HAMMING in
  let taps_2 :=
    Gr.LowPass 1 (inject_Z samp_rate / inject_Z (d1 * d0 ^ 2)) 3.5E3 500
      Gr.WIN_HAMMING in
  let pfb_resamp :=
    (inject_Z audio_rate / (inject_Z samp_rate / inject_Z (d1 * d0 ^ 3)))%Q in
  let wav_format :=
    if audio_bps =? 16 then Gr.FORMAT_PCM_16
    else if audio_bps =? 8 then Gr.FORMAT_PCM_08
    else Gr.FORMAT_PCM_16 in
  mkTuner audio_rate audio_bps min_recording 0 0.050%Q None record
    ([ ("freq_xlating_fir_filter_ccc",
        Gr.freq_xlating_fir_filter_ccc d0 taps_0 0 samp_rate);
       ("fir_filter_ccc_0", Gr.fir_filter_ccc d0 taps_0);
       ("fir_filter_ccc_1", Gr.fir_filter_ccc d1 taps_1);
       ("analog_pwr_squelch_cc", Gr.pwr_squelch_cc (-60) 1e-1 0 false);
       ("analog_quadrature_demod_cf", Gr.quadrature_demod_cf (Q2R 0.050));
       ("fir_filter_fff_0", Gr.fir_filter_fff d0 taps_2);
       ("pfb_arb_resampler_fff", Gr.arb_resampler_fff pfb_resamp 32);
       ("analog_pwr_squelch_ff", Gr.pwr_squelch_ff (-200) 1e-1 0 true) ] ++
     [ if record
       then ("blocks_wavfile_sink",
             Gr.wavfile_sink "/dev/null" 1 audio_rate Gr.FORMAT_WAV
               wav_format false)
       else ("null_sink1", Gr.null_sink Gr.sizeof_float) ])
    ([ (Self, Blk "freq_xlating_fir_filter_ccc");
       (Blk "freq_xlating_fir_filter_ccc", Blk "fir_filter_ccc_0");
       (Blk "fir_filter_ccc_0", Blk "fir_filter_ccc_1");
       (Blk "fir_filter_ccc_1", Blk "analog_pwr_squelch_cc");
       (Blk "analog_pwr_squelch_cc", Blk "analog_quadrature_demod_cf");
       (Blk "analog_quadrature_demod_cf", Blk "fir_filter_fff_0");
       (Blk "fir_filter_fff_0", Blk "pfb_arb_resampler_fff");
       (Blk "pfb_arb_resampler_fff", Self);
       (Blk "pfb_arb_resampler_fff", Blk "analog_pwr_squelch_ff") ] ++
     [ (Blk "analog_pwr_squelch_ff",
        Blk (if record then "blocks_wavfile_sink" else "null_sink1")) ])
    None None.

(** The oracle of a library that accepts every argument. *)
Definition gr_accepts_all : Gr.call -> option Py.exn := fun _ => None.


(** *** Run-time setters *)

Fixpoint update_block (bs : list (string * Gr.block)) (name : string)
    (f : Gr.block -> Gr.block) : list (string * Gr.block) :=
  match bs with
  | [] => []
  | (n, b) :: bs' =>
      if String.eqb n name then (n, f b) :: bs'
      else (n, b) :: update_block bs' name f
  end.

(** [quadrature_demod_cf.set_gain]. *)
Definition set_gain (gain : R) (b : Gr.block) : Gr.block :=
  match b with
  | Gr.quadrature_demod_cf _ => Gr.quadrature_demod_cf gain
  | _ => b
  end.

Definition with_blocks (self : TunerDemodWBFM)
    (bs : list (string * Gr.block)) : TunerDemodWBFM :=
  mkTuner (audio_rate self) (audio_bps self) (min_recording self)
    (center_freq self) (quad_demod_gain self) (file_name self) (record self)
    bs (edges self) (ctcss_index self) (ctcss_tone self).

Definition with_ctcss_index (self : TunerDemodWBFM) (i : Z)
  : TunerDemodWBFM :=
  mkTuner (audio_rate self) (audio_bps self) (min_recording self)
    (center_freq self) (quad_demod_gain self) (file_name self) (record self)
    (blocks self) (edges self) (Some i) (ctcss_tone self).

Definition with_ctcss_tone (self : TunerDemodWBFM) (t : Q)
  : TunerDemodWBFM :=
  mkTuner (audio_rate self) (audio_bps self) (min_recording self)
    (center_freq self) (quad_demod_gain self) (file_name self) (record self)
    (blocks self) (edges self) (ctcss_index self) (Some t).

(** [set_volume]: the gain handed to the demodulator is computed from the
    attribute [quad_demod_gain], which the method does not assign. *)
Definition set_volume (self : TunerDemodWBFM) (volume_db : Q)
  : TunerDemodWBFM :=
  let gain :=
    (Q2R (quad_demod_gain self) * Rpower 10 (Q2R (volume_db / 20.0)))%R in
  with_blocks self
    (update_block (blocks self) "analog_quadrature_demod_cf" (set_gain gain)).

(** [set_ctcss_tone], over the tone list [ct.ctcss_tones] of the module
    [ctcss_tones], which is not among the sources and is a parameter here.
    The result is the object after the call and the value returned. *)
Definition get_ctcss_index (self : TunerDemodWBFM) : result Z :=
  match ctcss_index self with
  | Some i => Ok i
  | None => Raise (Py.OtherError "AttributeError")
  end.

Definition set_ctcss_tone (ctcss_tones : list Q) (self : TunerDemodWBFM)
    (ctcss_tone : Q) : result (TunerDemodWBFM * Q) :=
  i <- Py.index ctcss_tones ctcss_tone ;;
  let self := with_ctcss_index self i in
  i <- get_ctcss_index self ;;
  let self := if Py.truthy (Py.invert i) then with_ctcss_index self 0
              else self in
  i <- get_ctcss_index self ;;
  t <- Py.getitem ctcss_tones i ;;
  let self := with_ctcss_tone self t in
  Ok (self, t).

(* ================================================================== *)
(** ** Reading the flow graph *)

(** The source connected to [dst]: every input port of the graph has one. *)
Fixpoint source_of (es : list (endpoint * endpoint)) (dst : endpoint)
  : option endpoint :=
  match es with
  | [] => None
  | (s, d) :: es' => if endpoint_eqb d dst then Some s else source_of es' dst
  end.

(** The destinations fed by [src]. *)
Definition sinks_of (es : list (endpoint * endpoint)) (src : endpoint)
  : list endpoint :=
  map snd (filter (fun e => endpoint_eqb (fst e) src) es).

Fixpoint block_named (bs : list (string * Gr.block)) (name : string)
  : option Gr.block :=
  match bs with
  | [] => None
  | (n, b) :: bs' => if String.eqb n name then Some b else block_named bs' name
  end.

(** The blocks a sample crosses from the input port of the hierarchical
    block up to and including [src], first block first. *)
Fixpoint upstream (es : list (endpoint * endpoint)) (fuel : nat)
    (src : endpoint) : option (list string) :=
  match src with
  | Self => Some []
  | Blk n =>
      match fuel with
      | O => None
      | S k =>
          match source_of es (Blk n) with
          | Some p => option_map (fun l => l ++ [n]) (upstream es k p)
          | None => None
          end
      end
  end.

Fixpoint lookup_all (bs : list (string * Gr.block)) (names : list string)
  : option (list Gr.block) :=
  match names with
  | [] => Some []
  | n :: names' =>
      match block_named bs n, lookup_all bs names' with
      | Some b, Some l => Some (b :: l)
      | _, _ => None
      end
  end.

(** The blocks between the input port and the input of [dst]. *)
Definition chain_into (self : TunerDemodWBFM) (dst : endpoint)
  : option (list Gr.block) :=
  match source_of (edges self) dst with
  | Some p =>
      match upstream (edges self) (List.length (edges self)) p with
      | Some names => lookup_all (blocks self) names
      | None => None
      end
  | None => None
  end.

(** The blocks between the input port and the output port of the
    hierarchical block: what makes the audio handed to the owner. *)
Definition output_chain (self : TunerDemodWBFM) : option (list Gr.block) :=
  chain_into self Self.

(** *** Sample rates *)

(** Output rate of a block fed at rate [r]: a decimating filter keeps one
    sample in [decimation], the resampler multiplies the rate by its ratio,
    the other blocks of the demodulation path keep it. *)
Definition rate_out (b : Gr.block) (r : Q) : Q :=
  match b with
  | Gr.freq_xlating_fir_filter_ccc d _ _ _ => r / inject_Z d
  | Gr.fir_filter_ccc d _ => r / inject_Z d
  | Gr.fir_filter_fff d _ => r / inject_Z d
  | Gr.arb_resampler_fff rate _ => r * rate
  | _ => r
  end%Q.

Definition rate_through (bs : list Gr.block) (r : Q) : Q :=
  fold_left (fun r b => rate_out b r) bs r.

(** Rate at the input of [dst], and at the output port, for an input stream
    at [samp_rate]. *)
Definition rate_into (self : TunerDemodWBFM) (samp_rate : Z) (dst : endpoint)
  : option Q :=
  option_map (fun bs => rate_through bs (inject_Z samp_rate))
             (chain_into self dst).


(** The design rate of the taps of a filter block. *)
Definition taps_of (b : Gr.block) : option Gr.low_pass :=
  match b with
  | Gr.freq_xlating_fir_filter_ccc _ t _ _ => Some t
  | Gr.fir_filter_ccc _ t => Some t
  | Gr.fir_filter_fff _ t => Some t
  | _ => None
  end.


Definition gain_of (b : Gr.block) : option R :=
  match b with
  | Gr.quadrature_demod_cf g => Some g
  | _ => None
  end.

Definition demod_gain (self : TunerDemodWBFM) : option R :=
  match block_named (blocks self) "analog_quadrature_demod_cf" with
  | Some b => gain_of b
  | None => None
  end.

(** *** Streams *)

Section Streams.

(** Samples, and what each block makes of the stream it is fed; both are
    the library's and are left open. *)
Variable sample : Type.
Variable work : Gr.block -> list sample -> list sample.

Definition run_chain (bs : list Gr.block) (input : list sample)
  : list sample :=
  fold_left (fun s b => work b s) bs input.

(** The audio on the output port for a given input stream. *)
Definition delivered (self : TunerDemodWBFM) (input : list sample)
  : option (list sample) :=
  option_map (fun bs => run_chain bs input) (output_chain self).

End Streams.

Definition is_pwr_squelch_ff (b : Gr.block) : bool :=
  match b with
  | Gr.pwr_squelch_ff _ _ _ _ => true
  | _ => false
  end.

(* ================================================================== *)
(** ** The power squelch *)

Module Squelch.

Section Gate.

Variable sample : Type.
Variable power : sample -> Q.
Variable zero : sample.

Variable threshold : Q.
Variable alpha : Q.
Variable gate : bool.

(** Modelled from the spec: the power estimate of the squelch block of
    the GNU Radio library, smoothed with constant [alpha]
    (spec, section 4.3). *)
Definition estimate (pwr : Q) (x : sample) : Q :=
  (alpha * power x + (1 - alpha) * pwr)%Q.

(** Modelled from the spec: the gate of the library's squelch block is
    open when the estimated power exceeds the threshold. *)
Definition is_open (pwr : Q) : bool := negb (Qle_bool pwr threshold).

(** Gate state after each input sample. *)
Fixpoint opens (pwr : Q) (input : list sample) : list bool :=
  match input with
  | [] => []
  | x :: rest =>
      let pwr' := estimate pwr x in
      is_open pwr' :: opens pwr' rest
  end.

(** Modelled from the spec: the stream produced by the library's squelch
    block with no attack or release ramp.  An open gate passes the
    sample; a closed gate substitutes a zero sample when the block is
    not gating (non-blocking) and forwards nothing when it is gating
    (blocking) (spec, sections 4.3 and 4.8). *)
Fixpoint work (pwr : Q) (input : list sample) : list sample :=
  match input with
  | [] => []
  | x :: rest =>
      let pwr' := estimate pwr x in
      if is_open pwr' then x :: work pwr' rest
      else if gate then work pwr' rest
      else zero :: work pwr' rest
  end.

End Gate.

Definition complex : Type := (Q * Q)%type.
Definition norm2 (c : complex) : Q := (fst c * fst c + snd c * snd c)%Q.
Definition sqr (x : Q) : Q := (x * x)%Q.

Section Blocks.

(** Modelled from the spec: the library's conversion of a threshold in
    dB to a power; left open, only its sign matters. *)
Variable from_db : Z -> Q.

Definition work_cc (b : Gr.block) (input : list complex)
  : option (list complex) :=
  match b with
  | Gr.pwr_squelch_cc db alpha ramp gate =>
      if ramp =? 0
      then Some (work complex norm2 (0, 0)%Q (from_db db) alpha gate 0 input)
      else None
  | _ => None
  end.

Definition opens_cc (b : Gr.block) (input : list complex)
  : option (list bool) :=
  match b with
  | Gr.pwr_squelch_cc db alpha ramp gate =>
      if ramp =? 0
      then Some (opens complex norm2 (from_db db) alpha 0 input)
      else None
  | _ => None
  end.

Definition work_ff (b : Gr.block) (input : list Q) : option (list Q) :=
  match b with
  | Gr.pwr_squelch_ff db alpha ramp gate =>
      if ramp =? 0
      then Some (work Q sqr 0%Q (from_db db) alpha gate 0 input)
      else None
  | _ => None
  end.

Definition opens_ff (b : Gr.block) (input : list Q) : option (list bool) :=
  match b with
  | Gr.pwr_squelch_ff db alpha ramp gate =>
      if ramp =? 0
      then Some (opens Q sqr (from_db db) alpha 0 input)
      else None
  | _ => None
  end.

End Blocks.

(** Ten to the power [db / 10], exact when [db] is a multiple of ten, as
    the two thresholds of the class are. *)
Definition tens (db : Z) : Q := (10 ^ (db / 10))%Q.

End Squelch.

(** A short tone list in the order of the standard CTCSS table. *)
Definition tones_demo : list Q := [67.0; 69.3; 71.9; 74.4; 77.0]%Q.


(** The design of the taps of the second IF stage, read off the block. *)
Definition stage2_taps (self : TunerDemodWBFM) : option Gr.low_pass :=
  match block_named (blocks self) "fir_filter_ccc_1" with
  | Some b => taps_of b
  | None => None
  end.


(** The design of the taps of the audio stage, read off the block. *)
Definition stage3_taps (self : TunerDemodWBFM) : option Gr.low_pass :=
  match block_named (blocks self) "fir_filter_fff_0" with
  | Some b => taps_of b
  | None => None
  end.


(** The names of the blocks made, and the number of edges that end at an
    endpoint. *)
Definition block_names (self : TunerDemodWBFM) : list string :=
  map fst (blocks self).

Definition in_degree (es : list (endpoint * endpoint)) (dst : endpoint) : nat :=
  List.length (filter (fun e => endpoint_eqb (snd e) dst) es).

Definition endpoint_known (self : TunerDemodWBFM) (e : endpoint) : bool :=
  match e with
  | Self => true
  | Blk n => existsb (String.eqb n) (block_names self)
  end.

(* ================================================================== *)
(** ** Properties *)

(** *** The Python fragment *)

Lemma bind_Ok {A B : Type} (m : result A) (k : A -> result B) (b : B) :
  Py.bind m k = Ok b -> exists a, m = Ok a /\ k a = Ok b.
Proof.
  destruct m as [a|e]; simpl; intros H; [exists a; auto | discriminate].
Qed.

Lemma truediv_int_Ok (a b : Z) (q : Q) :
  Py.truediv_int a b = Ok q -> b <> 0 /\ q = (inject_Z a / inject_Z b)%Q.
Proof.
  unfold Py.truediv_int. destruct (Z.eqb_spec b 0); intros H.
  - discriminate.
  - injection H as <-. auto.
Qed.

Lemma truediv_Ok (a b q : Q) :
  Py.truediv a b = Ok q -> ~ (b == 0)%Q /\ q = (a / b)%Q.
Proof.
  unfold Py.truediv. destruct (Qeq_bool b 0) eqn:E; intros H.
  - discriminate.
  - injection H as <-. split; [|reflexivity].
    intros Hb. apply Qeq_bool_iff in Hb. congruence.
Qed.

Lemma int_div_1E6 (samp_rate : Z) :
  Py.int (inject_Z samp_rate / 1E6)%Q = Z.quot samp_rate 1000000.
Proof.
  unfold Py.int. cbn. rewrite Z.mul_1_r. reflexivity.
Qed.

Lemma invert_truthy (i : Z) : 0 <= i -> Py.truthy (Py.invert i) = true.
Proof.
  intros Hi. unfold Py.truthy, Py.invert.
  destruct (Z.eqb_spec (Z.lnot i) 0) as [E|E]; [|reflexivity].
  unfold Z.lnot in E. lia.
Qed.

Lemma index_from_range (l : list Q) (x : Q) (i j : Z) :
  Py.index_from l x i = Ok j -> i <= j < i + Z.of_nat (List.length l).
Proof.
  revert i. induction l as [|y l IH]; intros i; simpl.
  - discriminate.
  - destruct (Qeq_bool y x).
    + intros H. injection H as <-. lia.
    + intros H. apply IH in H. lia.
Qed.

Lemma index_from_absent (l : list Q) (x : Q) (i : Z) :
  (forall y, In y l -> ~ (y == x)%Q) -> Py.index_from l x i = Raise ValueError.
Proof.
  revert i. induction l as [|y l IH]; intros i Hl; simpl.
  - reflexivity.
  - destruct (Qeq_bool y x) eqn:E.
    + apply Qeq_bool_iff in E. exfalso. apply (Hl y); simpl; auto.
    + apply IH. intros z Hz. apply Hl. simpl; auto.
Qed.

Lemma index_from_present (l : list Q) (x : Q) (i : Z) :
  (exists y, In y l /\ (y == x)%Q) -> exists j, Py.index_from l x i = Ok j.
Proof.
  revert i. induction l as [|y l IH]; intros i [z [Hz Hx]]; simpl.
  - destruct Hz.
  - destruct (Qeq_bool y x) eqn:E.
    + eauto.
    + apply IH. destruct Hz as [->|Hz].
      * apply Qeq_bool_iff in Hx. congruence.
      * eauto.
Qed.

(** *** Construction *)

Lemma firdes_low_pass_Ok gr (g fs fc tw : Q) (w : Gr.window) (t : Gr.low_pass) :
  firdes_low_pass gr g fs fc tw w = Ok t -> t = Gr.LowPass g fs fc tw w.
Proof.
  unfold firdes_low_pass, gr_call.
  destruct (gr _); simpl; intros H; [discriminate | congruence].
Qed.

Lemma make_Ok gr (b b' : Gr.block) : make gr b = Ok b' -> b' = b.
Proof.
  unfold make, gr_call.
  destruct (gr _); simpl; intros H; [discriminate | congruence].
Qed.

Ltac bind_step H :=
  let x := fresh "x" in
  let E := fresh "E" in
  apply bind_Ok in H; destruct H as [x [E H]];
  first [ apply firdes_low_pass_Ok in E; subst x
        | apply make_Ok in E; subst x
        | apply truediv_int_Ok in E; destruct E as [? ->]
        | apply truediv_Ok in E; destruct E as [? ->] ].

(** When the constructor returns, it returns [constructed], and neither
    division met a zero. *)
Lemma init_Ok_inv gr (samp_rate audio_rate : Z) (record : bool)
    (audio_bps : Z) (min_recording : Q) (self : TunerDemodWBFM) :
  __init__ gr samp_rate audio_rate record audio_bps min_recording = Ok self ->
  self = constructed samp_rate audio_rate record audio_bps min_recording
  /\ Z.quot samp_rate 1000000 <> 0
  /\ samp_rate <> 0.
Proof.
  unfold __init__. intros H.
  do 15 bind_step H.
  assert (Hd : Z.quot samp_rate 1000000 <> 0).
  { rewrite <- int_div_1E6. unfold decims in *. cbn [fst snd] in *. lia. }
  assert (Hs : samp_rate <> 0).
  { intros ->. apply Hd. reflexivity. }
  destruct record; bind_step H; injection H as <-;
    (split; [reflexivity | auto]).
Qed.

(** A library that accepts everything lets the constructor return as soon
    as the stage-2 factor is not zero. *)
Lemma init_accepts_all (samp_rate audio_rate : Z) (record : bool)
    (audio_bps : Z) (min_recording : Q) :
  Z.quot samp_rate 1000000 <> 0 ->
  __init__ gr_accepts_all samp_rate audio_rate record audio_bps min_recording
  = Ok (constructed samp_rate audio_rate record audio_bps min_recording).
Proof.
  intros Hd.
  assert (Hs : samp_rate <> 0) by (intros ->; apply Hd; reflexivity).
  pose proof (int_div_1E6 samp_rate) as Hi.
  unfold __init__, constructed, decims, firdes_low_pass, make, gr_call,
    gr_accepts_all.
  cbn [Py.bind fst snd BaseTuner_init base_audio_rate base_audio_bps
       base_min_recording].
  unfold Py.truediv_int.
  replace (5 ^ 2 =? 0) with false by reflexivity.
  set (d1 := Py.int (inject_Z samp_rate / 1E6)%Q) in *.
  destruct (Z.eqb_spec (d1 * 5 ^ 2) 0) as [E|E]; [lia|].
  destruct (Z.eqb_spec (d1 * 5 ^ 3) 0) as [E3|E3]; [lia|].
  cbn [Py.bind]. unfold Py.truediv.
  destruct (Qeq_bool (inject_Z samp_rate / inject_Z (d1 * 5 ^ 3)) 0) eqn:E0.
  - exfalso. apply Qeq_bool_iff in E0.
    unfold Qeq, Qdiv, Qmult, Qinv, inject_Z in E0. cbn [Qnum Qden] in E0.
    destruct (d1 * 5 ^ 3) eqn:Ed; cbn [Qnum Qden] in E0; lia.
  - cbn [Py.bind]. destruct record; reflexivity.
Qed.

(** *** The chain of the constructed object *)

Section Constructed.

Variables (samp_rate audio_rate : Z) (record : bool) (audio_bps : Z)
          (min_recording : Q).

Let self := constructed samp_rate audio_rate record audio_bps min_recording.

Lemma chain_into_stage2 :
  chain_into self (Blk "fir_filter_ccc_1") =
  lookup_all (blocks self)
    ["freq_xlating_fir_filter_ccc"; "fir_filter_ccc_0"].
Proof. reflexivity. Qed.


Lemma output_chain_constructed :
  output_chain self =
  lookup_all (blocks self)
    ["freq_xlating_fir_filter_ccc"; "fir_filter_ccc_0"; "fir_filter_ccc_1";
     "analog_pwr_squelch_cc"; "analog_quadrature_demod_cf";
     "fir_filter_fff_0"; "pfb_arb_resampler_fff"].
Proof. reflexivity. Qed.

End Constructed.


Lemma inject_Z_nonzero (z : Z) : z <> 0 -> ~ (inject_Z z == 0)%Q.
Proof. unfold Qeq, inject_Z. simpl. lia. Qed.

(** *** Decimation factors (claim C8) *)



(** *** Sample rates (claims C2 and C7) *)




(** C7, as stated, fails: at 1,000,000 samples per second the taps of the
    second IF stage are not designed at [samp_rate / 5]. *)
Lemma stage2_taps_not_designed_at_a_fifth :
  ~ (forall self,
        __init__ gr_accepts_all 1000000 8000 false 8 0 = Ok self ->
        exists t, stage2_taps self = Some t
                  /\ (Gr.lp_sampling_freq t == inject_Z 1000000 / 5)%Q).
Proof.
  intros H.
  destruct (H (constructed 1000000 8000 false 8 0) eq_refl) as [t [Ht Hfs]].
  injection Ht as <-. revert Hfs. cbn. unfold Qeq. cbn. discriminate.
Qed.

(** C7, amended.  The low-pass taps of the second IF stage (12.5 kHz cutoff,
    1 kHz transition, Hamming window) are designed at [samp_rate / 25].
    That is the rate of the stream the stage consumes: it is fed by the
    decimate-by-5 FIR filter that follows the frequency translator, and the
    translator's own output, which feeds that filter, runs at
    [samp_rate / 5]. *)
Theorem stage2_taps_designed_at_input_rate :
  forall gr (samp_rate audio_rate : Z) (record : bool) (audio_bps : Z)
         (min_recording : Q) (self : TunerDemodWBFM),
    __init__ gr samp_rate audio_rate record audio_bps min_recording = Ok self ->
    exists t fed,
      stage2_taps self = Some t
      /\ (Gr.lp_cutoff_freq t == 12500)%Q
      /\ (Gr.lp_transition_width t == 1000)%Q
      /\ Gr.lp_window t = Gr.WIN_HAMMING
      /\ (Gr.lp_sampling_freq t == inject_Z samp_rate / 25)%Q
      /\ rate_into self samp_rate (Blk "fir_filter_ccc_1") = Some fed
      /\ (fed == Gr.lp_sampling_freq t)%Q
      /\ source_of (edges self) (Blk "fir_filter_ccc_1")
         = Some (Blk "fir_filter_ccc_0")
      /\ source_of (edges self) (Blk "fir_filter_ccc_0")
         = Some (Blk "freq_xlating_fir_filter_ccc")
      /\ rate_into self samp_rate (Blk "fir_filter_ccc_0")
         = Some (inject_Z samp_rate / 5)%Q.
Proof.
  intros gr sr ar rc bps mr self H.
  apply init_Ok_inv in H as [-> [Hd Hs]].
  assert (HR0 : ~ (inject_Z sr == 0)%Q) by (apply inject_Z_nonzero; lia).
  do 2 eexists.
  split; [reflexivity|].
  split; [reflexivity|].
  split; [reflexivity|].
  split; [reflexivity|].
  split; [reflexivity|].
  split; [reflexivity|].
  split.
  { cbn -[Qdiv inject_Z].
    change (inject_Z (fst (decims sr))) with 5%Q.
    change (inject_Z (fst (decims sr) ^ 2)) with 25%Q.
    field. }
  repeat (split; [reflexivity|]). reflexivity.
Qed.

Lemma stage2_taps_designed_at_input_rate_witness :
  exists self,
    __init__ gr_accepts_all 1000000 8000 false 8 0 = Ok self
    /\ exists t, stage2_taps self = Some t
                 /\ (Gr.lp_sampling_freq t == 40000)%Q.
Proof.
  exists (constructed 1000000 8000 false 8 0).
  split; [reflexivity|].
  destruct (stage2_taps_designed_at_input_rate gr_accepts_all
              1000000 8000 false 8 0 (constructed 1000000 8000 false 8 0)
              eq_refl)
    as [t [fed [Ht [_ [_ [_ [Hfs _]]]]]]].
  exists t. split; [exact Ht|].
  rewrite Hfs. reflexivity.
Defined.

(** *** The recording branch (claims C9 and C10) *)

(** C9.  The hard squelch is fed by the resampler and feeds one sink.  With
    [record] true the sink is a wav file sink whose sample format is 16-bit
    PCM for [audio_bps = 16], 8-bit PCM for [audio_bps = 8] and 16-bit PCM
    for any other value, which is not an error; with [record] false it is a
    null sink. *)
Theorem sink_selected_by_record_flag :
  forall gr (samp_rate audio_rate : Z) (record : bool) (audio_bps : Z)
         (min_recording : Q) (self : TunerDemodWBFM),
    __init__ gr samp_rate audio_rate record audio_bps min_recording = Ok self ->
    source_of (edges self) (Blk "analog_pwr_squelch_ff")
    = Some (Blk "pfb_arb_resampler_fff")
    /\ (record = true ->
        sinks_of (edges self) (Blk "analog_pwr_squelch_ff")
        = [Blk "blocks_wavfile_sink"]
        /\ block_named (blocks self) "null_sink1" = None
        /\ exists subformat,
            block_named (blocks self) "blocks_wavfile_sink"
            = Some (Gr.wavfile_sink "/dev/null" 1 audio_rate Gr.FORMAT_WAV
                      subformat false)
            /\ (audio_bps = 16 -> subformat = Gr.FORMAT_PCM_16)
            /\ (audio_bps = 8 -> subformat = Gr.FORMAT_PCM_08)
            /\ (audio_bps <> 16 -> audio_bps <> 8 ->
                subformat = Gr.FORMAT_PCM_16))
    /\ (record = false ->
        sinks_of (edges self) (Blk "analog_pwr_squelch_ff")
        = [Blk "null_sink1"]
        /\ block_named (blocks self) "null_sink1"
           = Some (Gr.null_sink Gr.sizeof_float)
        /\ block_named (blocks self) "blocks_wavfile_sink" = None)
    /\ (exists self',
           __init__ gr_accepts_all samp_rate audio_rate record audio_bps
             min_recording = Ok self').
Proof.
  intros gr sr ar rc bps mr self H.
  apply init_Ok_inv in H as [-> [Hd Hs]].
  split; [reflexivity|]. split; [|split].
  - intros ->. split; [reflexivity|]. split; [reflexivity|].
    eexists. split; [reflexivity|].
    repeat split.
    + intros ->. reflexivity.
    + intros ->. reflexivity.
    + intros H16 H8.
      destruct (Z.eqb_spec bps 16); [contradiction|].
      destruct (Z.eqb_spec bps 8); [contradiction|]. reflexivity.
  - intros ->. repeat split; reflexivity.
  - eexists. apply init_accepts_all. exact Hd.
Qed.

Lemma sink_selected_by_record_flag_witness :
  exists self,
    __init__ gr_accepts_all 1000000 8000 true 24 0 = Ok self
    /\ block_named (blocks self) "blocks_wavfile_sink"
       = Some (Gr.wavfile_sink "/dev/null" 1 8000 Gr.FORMAT_WAV
                 Gr.FORMAT_PCM_16 false).
Proof.
  exists (constructed 1000000 8000 true 24 0).
  split; [reflexivity|].
  destruct (sink_selected_by_record_flag gr_accepts_all 1000000 8000 true 24 0
              (constructed 1000000 8000 true 24 0) eq_refl)
    as [_ [Hrec _]].
  destruct (Hrec eq_refl) as [_ [_ [sub [Hb [_ [_ Hother]]]]]].
  rewrite Hb, Hother; [reflexivity | lia | lia].
Defined.

(** C10.  The output port is fed by the resampler; the hard squelch sits on
    a side branch that ends in the sink.  Whatever each block does to its
    stream, the audio on the output port is the same with [record] true and
    with [record] false, and it does not change when the hard squelch (or
    the sink) behaves differently: no block of that kind is on the way to
    the output port. *)
Theorem delivered_audio_bypasses_hard_squelch :
  forall gr (samp_rate audio_rate : Z) (audio_bps : Z) (min_recording : Q)
         (rec_on rec_off : TunerDemodWBFM),
    __init__ gr samp_rate audio_rate true audio_bps min_recording
    = Ok rec_on ->
    __init__ gr samp_rate audio_rate false audio_bps min_recording
    = Ok rec_off ->
    (forall self, self = rec_on \/ self = rec_off ->
        source_of (edges self) Self = Some (Blk "pfb_arb_resampler_fff")
        /\ sinks_of (edges self) (Blk "pfb_arb_resampler_fff")
           = [Self; Blk "analog_pwr_squelch_ff"]
        /\ (exists sink,
               sinks_of (edges self) (Blk "analog_pwr_squelch_ff") = [sink]
               /\ sinks_of (edges self) sink = [])
        /\ (exists bs,
               output_chain self = Some bs
               /\ forallb (fun b => negb (is_pwr_squelch_ff b)) bs = true)
        /\ forall (sample : Type)
                  (work work' : Gr.block -> list sample -> list sample)
                  (input : list sample),
             (forall b s, is_pwr_squelch_ff b = false ->
                          work b s = work' b s) ->
             exists audio,
               delivered sample work self input = Some audio
               /\ delivered sample work' self input = Some audio)
    /\ forall (sample : Type)
              (work : Gr.block -> list sample -> list sample)
              (input : list sample),
         delivered sample work rec_on input
         = delivered sample work rec_off input.
Proof.
  intros gr sr ar bps mr rec_on rec_off Hon Hoff.
  apply init_Ok_inv in Hon as [-> _].
  apply init_Ok_inv in Hoff as [-> _].
  split; [|reflexivity].
  intros self [-> | ->].
  - split; [reflexivity|]. split; [reflexivity|].
    split; [eexists; split; reflexivity|].
    split; [eexists; split; reflexivity|].
    intros sample work work' input Hw.
    eexists. split; [reflexivity|].
    unfold delivered. rewrite output_chain_constructed.
    cbn [lookup_all block_named blocks constructed app String.eqb Ascii.eqb
         Bool.eqb option_map run_chain fold_left].
    rewrite <- !Hw by reflexivity. reflexivity.
  - split; [reflexivity|]. split; [reflexivity|].
    split; [eexists; split; reflexivity|].
    split; [eexists; split; reflexivity|].
    intros sample work work' input Hw.
    eexists. split; [reflexivity|].
    unfold delivered. rewrite output_chain_constructed.
    cbn [lookup_all block_named blocks constructed app String.eqb Ascii.eqb
         Bool.eqb option_map run_chain fold_left].
    rewrite <- !Hw by reflexivity. reflexivity.
Qed.

Lemma delivered_audio_bypasses_hard_squelch_witness :
  exists rec_on rec_off,
    __init__ gr_accepts_all 1000000 8000 true 8 0 = Ok rec_on
    /\ __init__ gr_accepts_all 1000000 8000 false 8 0 = Ok rec_off
    /\ forall (work : Gr.block -> list Q -> list Q),
         delivered Q work rec_on [1; 2; 3]%Q
         = delivered Q work rec_off [1; 2; 3]%Q.
Proof.
  exists (constructed 1000000 8000 true 8 0).
  exists (constructed 1000000 8000 false 8 0).
  split; [reflexivity|]. split; [reflexivity|].
  intros work.
  apply (delivered_audio_bypasses_hard_squelch gr_accepts_all
           1000000 8000 8 0 _ _ eq_refl eq_refl).
Defined.

(** *** Volume (claim C6) *)

Lemma block_named_update (bs : list (string * Gr.block)) (name : string)
    (f : Gr.block -> Gr.block) (b : Gr.block) :
  block_named bs name = Some b ->
  block_named (update_block bs name f) name = Some (f b).
Proof.
  induction bs as [|[n c] bs IH]; simpl.
  - discriminate.
  - destruct (String.eqb n name) eqn:E; simpl; rewrite E.
    + intros H. injection H as ->. reflexivity.
    + exact IH.
Qed.






(** *** Input rates below the minimum (claim C4) *)






(** *** Tone selection (claims C1 and C3) *)

(** Whatever tone of the list is asked for, the index kept is 0 and the
    tone kept and returned is the first of the list: the complement of an
    index that [index] can return is never zero. *)
Lemma set_ctcss_tone_found (ctcss_tones : list Q) (self : TunerDemodWBFM)
    (f : Q) (i : Z) :
  Py.index ctcss_tones f = Ok i ->
  exists t0 rest,
    ctcss_tones = t0 :: rest
    /\ set_ctcss_tone ctcss_tones self f
       = Ok (with_ctcss_tone (with_ctcss_index (with_ctcss_index self i) 0) t0,
             t0).
Proof.
  intros Hi. unfold set_ctcss_tone. rewrite Hi. cbn [Py.bind].
  apply index_from_range in Hi as Hr.
  destruct ctcss_tones as [|t0 rest]; [simpl in Hr; lia|].
  exists t0, rest. split; [reflexivity|].
  cbn [get_ctcss_index ctcss_index with_ctcss_index Py.bind].
  rewrite invert_truthy by lia.
  cbn [get_ctcss_index ctcss_index with_ctcss_index Py.bind].
  unfold Py.getitem.
  replace (0 <? 0) with false by reflexivity.
  destruct (Z.leb_spec (Z.of_nat (List.length (t0 :: rest))) 0) as [Hl|Hl].
  - simpl List.length in Hl. lia.
  - reflexivity.
Qed.

(** C1, on the code.  With a tone list that starts 67.0, 69.3, asking for
    69.3, which is at index 1, keeps index 0 and returns 67.0: the claim
    that the tone asked for is returned and its own index kept does not
    hold of the method. *)
Theorem set_ctcss_tone_second_entry_returns_first :
  forall self : TunerDemodWBFM,
    Py.index tones_demo 69.3%Q = Ok 1
    /\ exists self',
        set_ctcss_tone tones_demo self 69.3%Q = Ok (self', 67.0%Q)
        /\ ctcss_index self' = Some 0
        /\ ctcss_tone self' = Some 67.0%Q
        /\ ~ (67.0 == 69.3)%Q.
Proof.
  intros self. split; [reflexivity|].
  eexists. split; [reflexivity|].
  split; [reflexivity|]. split; [reflexivity|].
  unfold Qeq. cbn. discriminate.
Qed.

(** C3.  For a frequency that no entry of the tone list equals, the lookup
    raises [ValueError], the not-found error of [list.index], and the
    method ends there: it returns nothing, the first entry included. *)
Theorem set_ctcss_tone_absent_raises :
  forall (ctcss_tones : list Q) (self : TunerDemodWBFM) (f : Q),
    (forall t, In t ctcss_tones -> ~ (t == f)%Q) ->
    set_ctcss_tone ctcss_tones self f = Raise ValueError
    /\ forall self' t, set_ctcss_tone ctcss_tones self f <> Ok (self', t).
Proof.
  intros tones self f Habs.
  assert (E : set_ctcss_tone tones self f = Raise ValueError).
  { unfold set_ctcss_tone, Py.index.
    rewrite (index_from_absent tones f 0 Habs). reflexivity. }
  split; [exact E|]. intros self' t. rewrite E. discriminate.
Qed.

Lemma set_ctcss_tone_absent_raises_witness :
  set_ctcss_tone tones_demo (constructed 1000000 8000 false 8 0) 100.0%Q
  = Raise ValueError.
Proof.
  apply (set_ctcss_tone_absent_raises tones_demo
           (constructed 1000000 8000 false 8 0) 100.0%Q).
  intros t Ht. simpl in Ht.
  repeat (destruct Ht as [<- | Ht]; [unfold Qeq; simpl; lia|]).
  destruct Ht.
Defined.

(** *** The two squelches (claim C5) *)

Section GateFacts.

Variable sample : Type.
Variable power : sample -> Q.
Variable zero : sample.
Variables threshold alpha : Q.

Let opens := Squelch.opens sample power threshold alpha.
Let work := Squelch.work sample power zero threshold alpha.

Lemma opens_length (pwr : Q) (input : list sample) :
  List.length (opens pwr input) = List.length input.
Proof.
  revert pwr. induction input as [|x rest IH]; intros pwr; simpl.
  - reflexivity.
  - f_equal. apply IH.
Qed.

(** Not gating: one output sample per input sample, the input sample
    under an open gate and the zero sample under a closed one. *)
Lemma work_not_gating (pwr : Q) (input : list sample) :
  work false pwr input
  = map (fun p : bool * sample => if fst p then snd p else zero)
        (combine (opens pwr input) input).
Proof.
  revert pwr. induction input as [|x rest IH]; intros pwr; simpl.
  - reflexivity.
  - destruct (Squelch.is_open threshold _); simpl; f_equal; apply IH.
Qed.

Lemma work_not_gating_length (pwr : Q) (input : list sample) :
  List.length (work false pwr input) = List.length input.
Proof.
  rewrite work_not_gating, length_map, length_combine, opens_length.
  apply Nat.min_id.
Qed.

(** Gating: the input samples under an open gate, nothing else. *)
Lemma work_gating (pwr : Q) (input : list sample) :
  work true pwr input
  = map snd (filter fst (combine (opens pwr input) input)).
Proof.
  revert pwr. induction input as [|x rest IH]; intros pwr; simpl.
  - reflexivity.
  - destruct (Squelch.is_open threshold _); simpl; [f_equal|]; apply IH.
Qed.

Lemma work_gating_length (pwr : Q) (input : list sample) :
  (List.length (work true pwr input) <= List.length input)%nat.
Proof.
  revert pwr. induction input as [|x rest IH]; intros pwr; simpl.
  - lia.
  - destruct (Squelch.is_open threshold _); simpl; specialize (IH
      (Squelch.estimate sample power alpha pwr x)); fold work in IH; lia.
Qed.

Lemma work_gating_closed (pwr : Q) (input : list sample) :
  forallb negb (opens pwr input) = true -> work true pwr input = [].
Proof.
  revert pwr. induction input as [|x rest IH]; intros pwr; simpl.
  - reflexivity.
  - destruct (Squelch.is_open threshold _); simpl; [discriminate|].
    apply IH.
Qed.

(** Silence keeps the gate closed when the threshold is positive. *)
Lemma opens_silence (pwr : Q) (x : sample) (n : nat) :
  (0 < threshold)%Q -> (pwr == 0)%Q -> (power x == 0)%Q ->
  forallb negb (opens pwr (repeat x n)) = true.
Proof.
  intros Ht Hp Hx. revert pwr Hp.
  induction n as [|n IH]; intros pwr Hp; simpl.
  - reflexivity.
  - assert (E : (Squelch.estimate sample power alpha pwr x == 0)%Q).
    { unfold Squelch.estimate. rewrite Hp, Hx. ring. }
    rewrite (IH _ E), andb_true_r.
    unfold Squelch.is_open. rewrite negb_involutive.
    apply Qle_bool_iff. rewrite E. apply Qlt_le_weak, Ht.
Qed.

End GateFacts.

Lemma tens_positive (db : Z) : (0 < Squelch.tens db)%Q.
Proof. unfold Squelch.tens. apply Qpower_0_lt. reflexivity. Qed.

(** C5.  The constructor makes the soft squelch with threshold -60 dB,
    smoothing 0.1 and no gating, and the hard squelch with threshold
    -200 dB and gating.  On every input stream the soft squelch puts out
    one sample per input sample, a zero sample where its gate is closed;
    the hard squelch puts out only the samples met with its gate open, so
    nothing over a stretch where the gate stays closed, as on silence. *)
Theorem soft_squelch_keeps_hard_squelch_drops :
  forall gr (samp_rate audio_rate : Z) (record : bool) (audio_bps : Z)
         (min_recording : Q) (self : TunerDemodWBFM) (from_db : Z -> Q),
    (forall db, 0 < from_db db)%Q ->
    __init__ gr samp_rate audio_rate record audio_bps min_recording = Ok self ->
    let soft := Gr.pwr_squelch_cc (-60) 0.1 0 false in
    let hard := Gr.pwr_squelch_ff (-200) 0.1 0 true in
    block_named (blocks self) "analog_pwr_squelch_cc" = Some soft
    /\ block_named (blocks self) "analog_pwr_squelch_ff" = Some hard
    /\ (forall input : list Squelch.complex,
           exists gates out,
             Squelch.opens_cc from_db soft input = Some gates
             /\ Squelch.work_cc from_db soft input = Some out
             /\ List.length out = List.length input
             /\ out = map (fun p : bool * Squelch.complex =>
                             if fst p then snd p else (0, 0)%Q)
                          (combine gates input))
    /\ (forall input : list Q,
           exists gates out,
             Squelch.opens_ff from_db hard input = Some gates
             /\ Squelch.work_ff from_db hard input = Some out
             /\ out = map snd (filter fst (combine gates input))
             /\ (List.length out <= List.length input)%nat
             /\ (forallb negb gates = true -> out = []))
    /\ (forall n : nat,
           Squelch.work_ff from_db hard (repeat 0%Q n) = Some []).
Proof.
  intros gr sr ar rc bps mr self from_db Hpos H soft hard.
  apply init_Ok_inv in H as [-> _].
  split; [reflexivity|]. split; [reflexivity|]. split; [|split].
  - intros input. do 2 eexists.
    split; [reflexivity|]. split; [reflexivity|]. split.
    + apply work_not_gating_length.
    + apply work_not_gating.
  - intros input. do 2 eexists.
    split; [reflexivity|]. split; [reflexivity|]. split; [|split].
    + apply work_gating.
    + apply work_gating_length.
    + apply work_gating_closed.
  - intros n. cbn [Squelch.work_ff hard Z.eqb]. f_equal.
    apply work_gating_closed, opens_silence;
      [apply Hpos | reflexivity | reflexivity].
Qed.

Lemma soft_squelch_keeps_hard_squelch_drops_witness :
  exists self,
    __init__ gr_accepts_all 1000000 8000 true 8 0 = Ok self
    /\ Squelch.work_ff Squelch.tens (Gr.pwr_squelch_ff (-200) 0.1 0 true)
         (repeat 0%Q 4) = Some [].
Proof.
  exists (constructed 1000000 8000 true 8 0).
  split; [reflexivity|].
  apply (soft_squelch_keeps_hard_squelch_drops gr_accepts_all
           1000000 8000 true 8 0 (constructed 1000000 8000 true 8 0)
           Squelch.tens tens_positive eq_refl).
Defined.


(* ================================================================== *)
(** ** Further properties of the class *)

(** *** Tone selection *)

Lemma index_from_Ok_present (l : list Q) (x : Q) (i j : Z) :
  Py.index_from l x i = Ok j -> exists y, In y l /\ (y == x)%Q.
Proof.
  revert i. induction l as [|y l IH]; intros i; simpl.
  - discriminate.
  - destruct (Qeq_bool y x) eqn:E.
    + intros _. exists y. split; [auto | apply Qeq_bool_iff, E].
    + intros H. destruct (IH _ H) as [z [Hz Hx]]. eauto.
Qed.

Lemma index_from_Raise (l : list Q) (x : Q) (i : Z) (e : Py.exn) :
  Py.index_from l x i = Raise e ->
  e = ValueError /\ forall y, In y l -> ~ (y == x)%Q.
Proof.
  revert i. induction l as [|y l IH]; intros i; simpl.
  - intros H. injection H as <-. split; [reflexivity | intros y []].
  - destruct (Qeq_bool y x) eqn:E; [discriminate|].
    intros H. destruct (IH _ H) as [-> Hl]. split; [reflexivity|].
    intros z [<- | Hz]; [|auto].
    intros Hq. apply Qeq_bool_iff in Hq. congruence.
Qed.

(** Whatever listed tone is asked for, and whatever the list, the method
    keeps index 0 and keeps and returns the first entry of the list. *)
Theorem set_ctcss_tone_listed_gives_first_entry :
  forall (ctcss_tones : list Q) (self : TunerDemodWBFM) (f : Q),
    (exists t, In t ctcss_tones /\ (t == f)%Q) ->
    exists t0 rest self',
      ctcss_tones = t0 :: rest
      /\ set_ctcss_tone ctcss_tones self f = Ok (self', t0)
      /\ ctcss_index self' = Some 0
      /\ ctcss_tone self' = Some t0.
Proof.
  intros tones self f Hin.
  destruct (index_from_present tones f 0 Hin) as [i Hi].
  destruct (set_ctcss_tone_found tones self f i Hi) as [t0 [rest [-> E]]].
  exists t0, rest. eexists. split; [reflexivity|].
  split; [exact E|]. split; reflexivity.
Qed.

Lemma set_ctcss_tone_listed_gives_first_entry_witness :
  exists self',
    set_ctcss_tone tones_demo (constructed 1000000 8000 false 8 0) 74.4%Q
    = Ok (self', 67.0%Q).
Proof.
  destruct (set_ctcss_tone_listed_gives_first_entry tones_demo
              (constructed 1000000 8000 false 8 0) 74.4%Q)
    as [t0 [rest [self' [Hl [E _]]]]].
  - exists 74.4%Q. split; [simpl; auto 6 | reflexivity].
  - injection Hl as <- _. exists self'. exact E.
Defined.

(** The method has two outcomes only: it returns, which it does exactly
    when some entry of the list equals the tone asked for, or it raises
    [ValueError]; the subscript and the attribute reads never raise. *)
Theorem set_ctcss_tone_outcomes :
  forall (ctcss_tones : list Q) (self : TunerDemodWBFM) (f : Q),
    match set_ctcss_tone ctcss_tones self f with
    | Ok _ => exists t, In t ctcss_tones /\ (t == f)%Q
    | Raise e =>
        e = ValueError /\ forall t, In t ctcss_tones -> ~ (t == f)%Q
    end.
Proof.
  intros tones self f.
  destruct (Py.index tones f) as [i|e] eqn:Hi.
  - destruct (set_ctcss_tone_found tones self f i Hi) as [t0 [rest [_ ->]]].
    exact (index_from_Ok_present tones f 0 i Hi).
  - unfold set_ctcss_tone. rewrite Hi. cbn [Py.bind].
    exact (index_from_Raise tones f 0 e Hi).
Qed.

(** A call that returns changes the two tone attributes and nothing else:
    the blocks, the edges and the other attributes are as before, so the
    chain to the output port and every rate are as before.  No block of
    the flow graph reads the tone. *)
Theorem set_ctcss_tone_leaves_flow_graph :
  forall (ctcss_tones : list Q) (self self' : TunerDemodWBFM) (f t : Q),
    set_ctcss_tone ctcss_tones self f = Ok (self', t) ->
    blocks self' = blocks self
    /\ edges self' = edges self
    /\ quad_demod_gain self' = quad_demod_gain self
    /\ record self' = record self
    /\ audio_rate self' = audio_rate self
    /\ audio_bps self' = audio_bps self
    /\ demod_gain self' = demod_gain self
    /\ output_chain self' = output_chain self
    /\ forall samp_rate dst,
         rate_into self' samp_rate dst = rate_into self samp_rate dst.
Proof.
  intros tones self self' f t H.
  destruct (Py.index tones f) as [i|e] eqn:Hi.
  - destruct (set_ctcss_tone_found tones self f i Hi) as [t0 [rest [_ E]]].
    rewrite E in H. injection H as <- <-.
    repeat split; reflexivity.
  - unfold set_ctcss_tone in H. rewrite Hi in H. discriminate.
Qed.

Lemma set_ctcss_tone_leaves_flow_graph_witness :
  exists self',
    set_ctcss_tone tones_demo (constructed 1000000 8000 true 8 0) 77.0%Q
    = Ok (self', 67.0%Q)
    /\ output_chain self'
       = output_chain (constructed 1000000 8000 true 8 0).
Proof.
  eexists. split; [reflexivity|].
  apply (set_ctcss_tone_leaves_flow_graph tones_demo
           (constructed 1000000 8000 true 8 0) _ 77.0%Q 67.0%Q eq_refl).
Defined.

(** *** Volume *)

Lemma block_named_update_other (bs : list (string * Gr.block))
    (name other : string) (f : Gr.block -> Gr.block) :
  String.eqb name other = false ->
  block_named (update_block bs name f) other = block_named bs other.
Proof.
  intros Hne. induction bs as [|[n c] bs IH]; simpl.
  - reflexivity.
  - destruct (String.eqb n name) eqn:E; simpl.
    + apply String.eqb_eq in E. subst n. rewrite Hne. reflexivity.
    + destruct (String.eqb n other); [reflexivity | exact IH].
Qed.

Lemma block_named_update_any (bs : list (string * Gr.block))
    (name other : string) (f : Gr.block -> Gr.block) :
  block_named (update_block bs name f) other
  = option_map (fun b => if String.eqb name other then f b else b)
               (block_named bs other).
Proof.
  destruct (String.eqb name other) eqn:E.
  - apply String.eqb_eq in E. subst other.
    destruct (block_named bs name) as [b|] eqn:Hb.
    + rewrite (block_named_update _ _ _ _ Hb). reflexivity.
    + simpl. induction bs as [|[n c] bs IH]; simpl in *; [reflexivity|].
      destruct (String.eqb n name) eqn:En; [discriminate|].
      simpl. rewrite En. apply IH, Hb.
  - rewrite block_named_update_other by exact E.
    destruct (block_named bs other); reflexivity.
Qed.

Lemma rate_out_set_gain (g : R) (b : Gr.block) (r : Q) :
  rate_out (set_gain g b) r = rate_out b r.
Proof. destruct b; reflexivity. Qed.

Lemma rate_through_update (bs : list (string * Gr.block)) (name : string)
    (g : R) (names : list string) (r : Q) :
  option_map (fun l => rate_through l r)
             (lookup_all (update_block bs name (set_gain g)) names)
  = option_map (fun l => rate_through l r) (lookup_all bs names).
Proof.
  revert r. induction names as [|n names IH]; intros r; simpl.
  - reflexivity.
  - rewrite block_named_update_any.
    destruct (block_named bs n) as [b|]; simpl; [|reflexivity].
    specialize (IH (rate_out b r)).
    destruct (lookup_all (update_block bs name (set_gain g)) names) as [l|];
      destruct (lookup_all bs names) as [l'|]; simpl in *;
      try discriminate; try reflexivity.
    unfold rate_through in *. simpl.
    destruct (String.eqb name n); [rewrite rate_out_set_gain|]; exact IH.
Qed.

(** [set_volume] touches the gain of the quadrature demodulator and nothing
    else: every other block, the edges and all attributes are as before,
    the squelch ahead of the demodulator included, and so is the rate at
    every point of the graph. *)
Theorem set_volume_changes_gain_only :
  forall (self : TunerDemodWBFM) (volume_db : Q),
    let self' := set_volume self volume_db in
    edges self' = edges self
    /\ quad_demod_gain self' = quad_demod_gain self
    /\ ctcss_index self' = ctcss_index self
    /\ ctcss_tone self' = ctcss_tone self
    /\ record self' = record self
    /\ audio_rate self' = audio_rate self
    /\ block_names self' = block_names self
    /\ (forall name,
           name <> "analog_quadrature_demod_cf" ->
           block_named (blocks self') name = block_named (blocks self) name)
    /\ (forall samp_rate dst,
           rate_into self' samp_rate dst = rate_into self samp_rate dst).
Proof.
  intros self v self'. subst self'.
  repeat (split; [reflexivity|]). split; [|split].
  - unfold block_names, set_volume. cbn [blocks with_blocks].
    induction (blocks self) as [|[n c] bs IH]; simpl; [reflexivity|].
    destruct (String.eqb n "analog_quadrature_demod_cf"); simpl;
      [reflexivity | f_equal; exact IH].
  - intros name Hne. unfold set_volume. cbn [blocks with_blocks].
    apply block_named_update_other. apply String.eqb_neq. congruence.
  - intros sr dst. unfold rate_into, chain_into, set_volume.
    cbn [blocks edges with_blocks].
    destruct (source_of (edges self) dst) as [p|]; [|reflexivity].
    destruct (upstream (edges self) (List.length (edges self)) p)
      as [names|]; [|reflexivity].
    apply rate_through_update.
Qed.






(** *** Rates along the chain *)

Lemma decims_factor_nonzero (samp_rate : Z) :
  Z.quot samp_rate 1000000 <> 0 -> snd (decims samp_rate) <> 0.
Proof. unfold decims. cbn [snd]. rewrite int_div_1E6. auto. Qed.



Section ConstructedRates.

Variables (samp_rate audio_rate : Z) (record : bool) (audio_bps : Z)
          (min_recording : Q).

Let self := constructed samp_rate audio_rate record audio_bps min_recording.
Let d := snd (decims samp_rate).

Hypothesis d_nonzero : d <> 0.
Hypothesis rate_nonzero : samp_rate <> 0.






End ConstructedRates.








(** The low-pass taps of the audio stage (3.5 kHz cutoff, 500 Hz
    transition, Hamming window) are designed at
    [samp_rate / (decims[1] * 25)], the rate of the stream the stage
    consumes: the squelch and the demodulator between the second IF stage
    and the audio stage keep the rate. *)
Theorem stage3_taps_designed_at_input_rate :
  forall gr (samp_rate audio_rate : Z) (record : bool) (audio_bps : Z)
         (min_recording : Q) (self : TunerDemodWBFM),
    __init__ gr samp_rate audio_rate record audio_bps min_recording = Ok self ->
    exists t fed,
      stage3_taps self = Some t
      /\ (Gr.lp_cutoff_freq t == 3500)%Q
      /\ (Gr.lp_transition_width t == 500)%Q
      /\ Gr.lp_window t = Gr.WIN_HAMMING
      /\ (Gr.lp_sampling_freq t
          == inject_Z samp_rate / inject_Z (snd (decims samp_rate) * 25))%Q
      /\ rate_into self samp_rate (Blk "fir_filter_fff_0") = Some fed
      /\ (fed == Gr.lp_sampling_freq t)%Q.
Proof.
  intros gr sr ar rc bps mr self H.
  apply init_Ok_inv in H as [-> [Hd Hs]].
  apply decims_factor_nonzero in Hd.
  do 2 eexists.
  split; [reflexivity|]. split; [reflexivity|]. split; [reflexivity|].
  split; [reflexivity|]. split; [reflexivity|]. split; [reflexivity|].
  cbn -[Qdiv inject_Z decims Z.mul Z.pow].
  change (inject_Z (fst (decims sr))) with 5%Q.
  change (fst (decims sr) ^ 2) with 25.
  rewrite inject_Z_mult. change (inject_Z 25) with 25%Q.
  field. apply inject_Z_nonzero. exact Hd.
Qed.

Lemma stage3_taps_designed_at_input_rate_witness :
  exists self t,
    __init__ gr_accepts_all 1960000 8000 false 8 0 = Ok self
    /\ stage3_taps self = Some t
    /\ (Gr.lp_sampling_freq t == 78400)%Q.
Proof.
  exists (constructed 1960000 8000 false 8 0).
  destruct (stage3_taps_designed_at_input_rate gr_accepts_all
              1960000 8000 false 8 0 (constructed 1960000 8000 false 8 0)
              eq_refl) as [t [fed [Ht [_ [_ [_ [Hfs _]]]]]]].
  exists t. split; [reflexivity|]. split; [exact Ht|].
  rewrite Hfs. reflexivity.
Defined.



(** *** Outcomes of the constructor *)











(** *** Wiring *)

(** The graph the constructor leaves is well formed: nine blocks under
    distinct names and ten edges; every edge joins the hierarchical block or
    blocks that were made; the output port and every block have exactly one
    edge coming in; and every block is fed from the input port through a
    finite chain of blocks, so nothing dangles and nothing loops. *)
Theorem flow_graph_is_well_formed :
  forall gr (samp_rate audio_rate : Z) (recording : bool) (audio_bps : Z)
         (min_recording : Q) (self : TunerDemodWBFM),
    __init__ gr samp_rate audio_rate recording audio_bps min_recording
    = Ok self ->
    List.length (blocks self) = 9%nat
    /\ List.length (edges self) = 10%nat
    /\ NoDup (block_names self)
    /\ (forall src dst,
           In (src, dst) (edges self) ->
           endpoint_known self src = true /\ endpoint_known self dst = true)
    /\ in_degree (edges self) Self = 1%nat
    /\ (forall name,
           In name (block_names self) ->
           in_degree (edges self) (Blk name) = 1%nat
           /\ exists chain, chain_into self (Blk name) = Some chain).
Proof.
  intros gr sr ar rc bps mr self H.
  apply init_Ok_inv in H as [-> _].
  split; [reflexivity|]. split; [reflexivity|]. split; [|split; [|split]].
  - destruct rc; cbn;
      repeat (constructor;
              [simpl; intros Hin;
               repeat (destruct Hin as [Hin | Hin]; [discriminate Hin|]);
               exact Hin|]);
      constructor.
  - intros src dst Hin. destruct rc; cbn in Hin;
      repeat (destruct Hin as [Hin | Hin];
              [injection Hin as <- <-; split; reflexivity|]);
      destruct Hin.
  - destruct rc; reflexivity.
  - intros name Hin. destruct rc; cbn in Hin;
      repeat (destruct Hin as [<- | Hin];
              [split; [reflexivity | eexists; reflexivity]|]);
      destruct Hin.
Qed.

Lemma flow_graph_is_well_formed_witness :
  exists self,
    __init__ gr_accepts_all 1000000 8000 true 8 0 = Ok self
    /\ NoDup (block_names self)
    /\ in_degree (edges self) (Blk "analog_pwr_squelch_ff") = 1%nat.
Proof.
  exists (constructed 1000000 8000 true 8 0).
  destruct (flow_graph_is_well_formed gr_accepts_all 1000000 8000 true 8 0
              (constructed 1000000 8000 true 8 0) eq_refl)
    as [_ [_ [Hn [_ [_ Hb]]]]].
  split; [reflexivity|]. split; [exact Hn|].
  apply Hb. cbn. auto 10.
Defined.

(** *** The two setters together *)

(** The two setters do not interfere: selecting a tone before or after
    setting the volume leaves the same object and returns the same tone. *)
Theorem setters_commute :
  forall (ctcss_tones : list Q) (self self' : TunerDemodWBFM)
         (f t volume_db : Q),
    set_ctcss_tone ctcss_tones self f = Ok (self', t) ->
    set_ctcss_tone ctcss_tones (set_volume self volume_db) f
    = Ok (set_volume self' volume_db, t).
Proof.
  intros tones self self' f t v H.
  destruct (Py.index tones f) as [i|e] eqn:Hi.
  - destruct (set_ctcss_tone_found tones self f i Hi) as [t0 [rest [Hl E]]].
    rewrite E in H. injection H as <- <-.
    destruct (set_ctcss_tone_found tones (set_volume self v) f i Hi)
      as [t1 [rest1 [Hl1 E1]]].
    rewrite E1. rewrite Hl in Hl1. injection Hl1 as <- _.
    reflexivity.
  - unfold set_ctcss_tone in H. rewrite Hi in H. discriminate.
Qed.

Lemma setters_commute_witness :
  exists self',
    set_ctcss_tone tones_demo
      (set_volume (constructed 1000000 8000 false 8 0) 6) 69.3%Q
    = Ok (set_volume self' 6, 67.0%Q).
Proof.
  eexists.
  apply (setters_commute tones_demo (constructed 1000000 8000 false 8 0)
           _ 69.3%Q 67.0%Q 6%Q eq_refl).
Defined.
